(** * FetchNode: a shallow embedding of scrapegraphai/nodes/fetch_node.py

    The node resolves one source reference (literal data, local markup or a
    remote URL) into a one-element list holding a [Document] and stores it in
    the graph state under its output key.  The embedding follows the Python
    text: values are dynamically typed, the graph state and the node live in
    a heap that [execute] threads through, exceptions are results, and every
    call to an outside capability (print, requests.get, cleanup_html,
    AsyncChromiumLoader.load) is recorded in a call log. *)

From Stdlib Require Import ZArith String Ascii List.
From stdpp Require Import base option list strings gmap.

Local Open Scope string_scope.
Local Open Scope Z_scope.
Set Warnings "-register-all".

(** ** Python values *)

Module Py.

(** The values that can sit in the graph state, in a configuration dict or
    in a document.  [VDocument] is a langchain [Document] with its
    [page_content] and its [metadata]. *)
Inductive value : Type :=
  | VNone
  | VBool (b : bool)
  | VInt (z : Z)
  | VStr (s : string)
  | VList (xs : list value)
  | VDocument (page_content : value) (metadata : list (string * value)).

(** Truth value of an object in a condition ([if x:], [elif x:]). *)
Definition truthy (v : value) : bool :=
  match v with
  | VNone => false
  | VBool b => b
  | VInt z => negb (z =? 0)
  | VStr s => negb (String.eqb s "")
  | VList xs => match xs with [] => false | _ => true end
  | VDocument _ _ => true
  end.

(** The exceptions the unit can raise by itself, and [Raised] for whatever an
    outside capability raises (named by its class). *)
Inductive exn : Type :=
  | KeyError (key : string)
  | IndexError
  | AttributeError (attribute : string)
  | NameError (name : string)
  | Raised (class : string).

(** An instance attribute is bound by an assignment [self.x = ..] or it is
    not there at all; reading an unbound one raises [AttributeError]. *)
Inductive attr (A : Type) : Type :=
  | Unbound
  | Bound (a : A).
Arguments Unbound {A}.
Arguments Bound {A} a.

(** [d.get(key, default)] on a dict. *)
Definition dict_get (d : gmap string value) (key : string) (default : value) : value :=
  match d !! key with
  | Some v => v
  | None => default
  end.

(** [s.startswith(p)] on two strings. *)
Definition startswith (s p : string) : bool := String.prefix p s.

End Py.
Export Py.

(** ** The data of the unit *)

(** What [requests.get] hands back, as far as the node reads it. *)
Record Response : Type := mkResponse { status_code : Z; text : string }.

(** One element of a parsed page and the parsed page itself: bs4 keeps the
    elements in document order, [find_all] keeps that order, and [prettify]
    renders the tree back to text. *)
Record Tag : Type := mkTag { tag_name : string; attrs : gmap string string }.
Record Soup : Type := mkSoup { tags : list Tag; prettify : string }.

Definition find_all (soup : Soup) (name : string) : list Tag :=
  List.filter (fun t => String.eqb (tag_name t) name) (tags soup).

(** The attributes [execute] reads on [self] and that the base class's
    initialiser is in charge of.  base_node.py is not part of this unit, so
    whether [BaseNode.__init__] binds [node_config] is left open here. *)
Record BaseNode : Type := mkBaseNode {
  node_name : string;
  input : string;
  output : list string;
  node_config : attr (option (gmap string value))
}.

Record FetchNode : Type := mkFetchNode {
  base :> BaseNode;
  useSoup : value;
  headless : value;
  verbose : value
}.

(** Calls that leave the unit, in the order they are made. *)
Inductive call : Type :=
  | PrintLine (message : string)
  | RequestsGet (url : string)
  | CleanupHtml (html : string) (link_urls : option (list string))
  | ChromiumLoad (urls : list string) (proxies : option value) (headless : value).

(** The collaborators of the node.  None of them is defined in this unit:
    [BaseNode_init] and [get_input_keys] belong to base_node.py,
    [cleanup_html] to utils/cleanup_html.py, the others to requests, bs4 and
    langchain.  [chromium_load urls proxies headless] stands for
    [AsyncChromiumLoader(urls, proxies={"http": p}, headless=h).load()] and
    yields the [page_content] of each loaded document.  [Document] declares
    [page_content: str]; [validate_page_content v] is what its validation
    makes of a value that is not a string: an error, or the text it turns
    the value into. *)
Record Collaborators : Type := mkCollaborators {
  BaseNode_init : string -> string -> string -> list string -> Z -> BaseNode;
  get_input_keys : FetchNode -> gmap string value -> exn + list string;
  cleanup_html : string -> option (list string) -> exn + string;
  requests_get : string -> exn + Response;
  BeautifulSoup : string -> string -> Soup;
  chromium_load : list string -> option value -> value -> exn + list string;
  validate_page_content : value -> exn + string
}.

(** ** The heap and the monad of [execute] *)

(** [execute(self, state)] works on two mutable objects, the node and the
    state dict; [calls] is the log of outside calls. *)
Record Heap : Type := mkHeap {
  self : FetchNode;
  state : gmap string value;
  calls : list call
}.

Definition M (A : Type) : Type := Heap -> (exn + A) * Heap.

Definition ret {A} (a : A) : M A := fun h => (inr a, h).

Definition bind {A B} (m : M A) (k : A -> M B) : M B :=
  fun h => match m h with
           | (inr a, h') => k a h'
           | (inl e, h') => (inl e, h')
           end.

Definition raise {A} (e : exn) : M A := fun h => (inl e, h).

Definition lift {A} (r : exn + A) : M A := fun h => (r, h).

Definition get_self : M FetchNode := fun h => (inr (self h), h).

Definition get_state : M (gmap string value) := fun h => (inr (state h), h).

(** [state.update({key: v})] *)
Definition state_update (key : string) (v : value) : M unit :=
  fun h => (inr tt, mkHeap (self h) (<[key := v]> (state h)) (calls h)).

Definition log_call (c : call) : M unit :=
  fun h => (inr tt, mkHeap (self h) (state h) (calls h ++ [c])).

Declare Scope py_scope.
Delimit Scope py_scope with py.
Notation "x <- c1 ;; c2" := (bind c1 (fun x => c2))
  (at level 100, c1 at next level, right associativity) : py_scope.
Notation "c1 ;; c2" := (bind c1 (fun _ => c2))
  (at level 100, right associativity) : py_scope.
Local Open Scope py_scope.

(** [state[key]] *)
Definition state_getitem (key : string) : M value :=
  st <- get_state ;;
  match st !! key with
  | Some v => ret v
  | None => raise (KeyError key)
  end.

(** [l[i]] on a list *)
Definition list_getitem {A} (l : list A) (i : nat) : M A :=
  match l !! i with
  | Some a => ret a
  | None => raise IndexError
  end.

(** [[f(x) for x in l]] *)
Fixpoint comprehension {A B} (f : A -> M B) (l : list A) : M (list B) :=
  match l with
  | [] => ret []
  | x :: rest =>
      y <- f x ;;
      ys <- comprehension f rest ;;
      ret (y :: ys)
  end.

(** The receiver of a string method such as [v.startswith(..)]: a value of
    another type has no such attribute. *)
Definition str_receiver (v : value) (method : string) : M string :=
  match v with
  | VStr s => ret s
  | _ => raise (AttributeError method)
  end.

(** [self.node_config] *)
Definition self_node_config : M (option (gmap string value)) :=
  me <- get_self ;;
  match node_config me with
  | Bound c => ret c
  | Unbound => raise (AttributeError "node_config")
  end.

(** [d[key]] on a dict *)
Definition dict_getitem (d : gmap string value) (key : string) : M value :=
  match d !! key with
  | Some v => ret v
  | None => raise (KeyError key)
  end.

Definition is_None (v : value) : bool :=
  match v with VNone => true | _ => false end.

(** ** FetchNode *)

Section FetchNode.

Variable env : Collaborators.

(** [FetchNode.__init__(self, input, output, node_config=None, node_name="Fetch")].
    The base initialiser receives the name, the type, the two key
    expressions and the minimum input length, not [node_config]; the three
    flags are then read from [node_config] with their defaults. *)
Definition FetchNode_init (input : string) (output : list string)
    (node_config : option (gmap string value)) (node_name : string) : FetchNode :=
  {| base := BaseNode_init env node_name "node" input output 1;
     useSoup := match node_config with
                | None => VBool true
                | Some d => dict_get d "useSoup" (VBool true)
                end;
     headless := match node_config with
                 | None => VBool true
                 | Some d => dict_get d "headless" (VBool true)
                 end;
     verbose := match node_config with
                | None => VBool false
                | Some d => dict_get d "verbose" (VBool false)
                end |}.

(** The loop of lines 82-85: [link_urls] grows by [link['href']] for every
    link that has the attribute. *)
Fixpoint collect_hrefs (links : list Tag) (link_urls : list string) : list string :=
  match links with
  | [] => link_urls
  | link :: rest =>
      match attrs link !! "href" with
      | Some href => collect_hrefs rest (link_urls ++ [href])
      | None => collect_hrefs rest link_urls
      end
  end.

(** [cleanup_html(html)] and [cleanup_html(html, link_urls)] *)
Definition call_cleanup_html (html : string) (link_urls : option (list string)) : M string :=
  log_call (CleanupHtml html link_urls) ;;
  lift (cleanup_html env html link_urls).

(** [requests.get(url)] *)
Definition call_requests_get (url : string) : M Response :=
  log_call (RequestsGet url) ;;
  lift (requests_get env url).

(** [AsyncChromiumLoader(urls, [proxies={"http": p},] headless=h).load()] *)
Definition call_chromium_load (urls : list string) (proxies : option value)
    (headless : value) : M (list string) :=
  log_call (ChromiumLoad urls proxies headless) ;;
  lift (chromium_load env urls proxies headless).

(** [Document(page_content=.., metadata=..)]: a string is stored as it is,
    any other value goes through the validation of langchain. *)
Definition new_Document (page_content : value) (metadata : list (string * value))
    : M value :=
  match page_content with
  | VStr s => ret (VDocument (VStr s) metadata)
  | _ =>
      content <- lift (validate_page_content env page_content) ;;
      ret (VDocument (VStr content) metadata)
  end.

(** Lines 67-105 of [execute]: the value bound to [compressed_document],
    by the kind of input and the shape of [source]. *)
Definition compressed_document (me : FetchNode) (source : value) : M value :=
  if String.eqb (input me) "json_dir" || String.eqb (input me) "xml_dir"
     || String.eqb (input me) "csv_dir"
  then
    document <- new_Document source [("source", VStr "local_dir")] ;;
    ret (VList [document])
  else
    src <- str_receiver source "startswith" ;;
    if negb (startswith src "http")
    then
      content <- call_cleanup_html src None ;;
      ret (VList [VDocument (VStr content) [("source", VStr "local_dir")]])
    else if truthy (useSoup me)
    then
      response <- call_requests_get src ;;
      if status_code response =? 200
      then
        let soup := BeautifulSoup env (text response) "html.parser" in
        let links := find_all soup "a" in
        let link_urls := collect_hrefs links [] in
        content <- call_cleanup_html (prettify soup) (Some link_urls) ;;
        ret (VList [VDocument (VStr content) []])
      else
        (* line 88 formats the name [url], bound in no scope of the module *)
        raise (NameError "url")
    else
      config <- self_node_config ;;
      document <-
        match config with
        | Some d =>
            if negb (is_None (dict_get d "endpoint" VNone))
            then
              endpoint <- dict_getitem d "endpoint" ;;
              call_chromium_load [src] (Some endpoint) (headless me)
            else call_chromium_load [src] None (headless me)
        | None => call_chromium_load [src] None (headless me)
        end ;;
      page_content <- list_getitem document 0 ;;
      content <- call_cleanup_html page_content None ;;
      ret (VList [VDocument (VStr content) []]).

(** What line 58 prints when [verbose] is set. *)
Definition announcement (me : FetchNode) : list call :=
  if truthy (verbose me)
  then [PrintLine ("--- Executing " ++ node_name me ++ " Node ---")]
  else [].

(** [FetchNode.execute(self, state)] *)
Definition execute : M (gmap string value) :=
  me <- get_self ;;
  (if truthy (verbose me)
   then log_call (PrintLine ("--- Executing " ++ node_name me ++ " Node ---"))
   else ret tt) ;;
  st <- get_state ;;
  input_keys <- lift (get_input_keys env me st) ;;
  input_data <- comprehension state_getitem input_keys ;;
  source <- list_getitem input_data 0 ;;
  document <- compressed_document me source ;;
  key <- list_getitem (output me) 0 ;;
  state_update key document ;;
  get_state.

(** Lines 61-66 succeed and bind [source] to [v]: the input expression
    resolves to at least one key, every key is in the state, and the first
    one holds [v]. *)
Definition reads_source (h : Heap) (v : value) : Prop :=
  exists key keys,
    get_input_keys env (self h) (state h) = inr (key :: keys) /\
    state h !! key = Some v /\
    Forall (fun k => is_Some (state h !! k)) keys.

End FetchNode.

(** The three input kinds whose source is literal data. *)
Definition literal_kinds : list string := ["json_dir"; "xml_dir"; "csv_dir"].

(** The href of every element of [links] that has one, in order. *)
Definition hrefs (links : list Tag) : list string :=
  omap (fun link => attrs link !! "href") links.

(** Calls that reach the network. *)
Definition is_network (c : call) : bool :=
  match c with
  | RequestsGet _ | ChromiumLoad _ _ _ => true
  | _ => false
  end.

Definition is_cleanup (c : call) : bool :=
  match c with
  | CleanupHtml _ _ => true
  | _ => false
  end.

(** The proxy lines 90-101 hand to the loader when [self.node_config] is
    [config]: the endpoint when the dict has one that is not None. *)
Definition configured_proxy (config : option (gmap string value)) : option value :=
  match config with
  | Some d =>
      match d !! "endpoint" with
      | Some v => if is_None v then None else Some v
      | None => None
      end
  | None => None
  end.

(** The specification's wording of a remote reference: one that begins with
    an HTTP(S) scheme prefix. *)
Definition spec_http_scheme_prefix (s : string) : bool :=
  String.prefix "http://" s || String.prefix "https://" s.

(** The heap once line 58 has run. *)
Definition announced (h : Heap) : Heap :=
  mkHeap (self h) (state h) (calls h ++ announcement (self h)).

(** ** Reasoning about [M] *)

(** A run from [h0] has so far touched neither the node nor the state. *)
Definition untouched (h0 h : Heap) : Prop :=
  self h = self h0 /\ state h = state h0.

(** A computation that writes neither the node nor the state and whose
    results satisfy [Q]. *)
Definition quiet {A} (m : M A) (Q : A -> Prop) : Prop :=
  forall h, untouched h (m h).2 /\ forall a, (m h).1 = inr a -> Q a.

(** Lines 57-105 of [execute] for the node [me]: everything before the
    update of the state. *)
Definition before_update (env : Collaborators) (me : FetchNode) : M value :=
  bind (if truthy (verbose me)
        then log_call (PrintLine ("--- Executing " ++ node_name me ++ " Node ---"))
        else ret tt)
    (fun _ => bind get_state
    (fun st => bind (lift (get_input_keys env me st))
    (fun input_keys => bind (comprehension state_getitem input_keys)
    (fun input_data => bind (list_getitem input_data 0)
    (fun source => compressed_document env me source))))).

(** A list holding exactly one document. *)
Definition one_document (v : value) : Prop :=
  exists content metadata, v = VList [VDocument content metadata].

(** ** The example page of the specification *)

Definition dq : string := String "034"%char EmptyString.

(** The page, quotes included. *)
Definition example_body : string :=
  "<html><body><a href=" ++ dq ++ "/a" ++ dq ++ ">x</a><a href=" ++ dq ++ "/b"
  ++ dq ++ ">y</a></body></html>".

(** Its two anchors as bs4 hands them over. *)
Definition example_anchors : list Tag :=
  [mkTag "a" {[ "href" := "/a" ]}; mkTag "a" {[ "href" := "/b" ]}].

(** All its elements in document order. *)
Definition example_tags : list Tag :=
  mkTag "html" ∅ :: mkTag "body" ∅ :: example_anchors.

(** ** Test doubles

    Deterministic stand-ins for the collaborators, used to run [execute] on
    concrete inputs. *)
Module Fixture.

Definition example_soup : Soup :=
  mkSoup example_tags
         "<html> <body> <a href=/a> x </a> <a href=/b> y </a> </body> </html>".

(** A base initialiser that stores the four arguments [execute] reads back
    and leaves [node_config] as [nc]. *)
Definition base_init (nc : attr (option (gmap string value)))
    (node_name node_type input : string) (output : list string) (min_input_len : Z)
    : BaseNode :=
  mkBaseNode node_name input output nc.

(** The input expression is a single key. *)
Definition input_keys (me : FetchNode) (st : gmap string value) : exn + list string :=
  inr [input me].

Definition cleanup (html : string) (link_urls : option (list string)) : exn + string :=
  inr (String.concat " " ("cleaned" :: html :: default [] link_urls)).

(** One page answers 200, any other URL with a scheme answers 404, and a
    reference without a scheme is refused before anything is sent. *)
Definition http_get (url : string) : exn + Response :=
  if String.eqb url "http://example.com" then inr (mkResponse 200 example_body)
  else if spec_http_scheme_prefix url then inr (mkResponse 404 "Not Found")
  else inl (Raised "MissingSchema").

Definition parse (markup parser : string) : Soup :=
  if String.eqb markup example_body then example_soup else mkSoup [] markup.

Definition render (urls : list string) (proxies : option value) (headless : value)
    : exn + list string :=
  inr (List.map (fun u => "<html>rendered " ++ u ++ "</html>") urls).

(** A page content that is not a string is refused. *)
Definition validate (page_content : value) : exn + string :=
  inl (Raised "ValidationError").

Definition env (nc : attr (option (gmap string value))) : Collaborators :=
  mkCollaborators (base_init nc) input_keys cleanup http_get parse render validate.

(** A node built by the constructor and a heap holding it and one state entry. *)
Definition node (nc : attr (option (gmap string value))) (input : string)
    (config : option (gmap string value)) : FetchNode :=
  FetchNode_init (env nc) input ["doc"] config "Fetch".

Definition heap (nc : attr (option (gmap string value))) (input : string)
    (config : option (gmap string value)) (source : value) : Heap :=
  mkHeap (node nc input config) {[ input := source; "other" := VInt 7 ]} [].

End Fixture.

(** ** Counting the calls of a run *)

Definition is_print (c : call) : bool :=
  match c with
  | PrintLine _ => true
  | _ => false
  end.

(** What a run may call after the announcement: at most one fetch, at most
    one pass through the Cleaner, and no print. *)
Definition within_budget (log : list call) : Prop :=
  (length (List.filter is_network log) <= 1)%nat
  /\ (length (List.filter is_cleanup log) <= 1)%nat
  /\ List.filter is_print log = [].

(** The node [me] with its verbose flag set to [v]. *)
Definition with_verbose (v : value) (me : FetchNode) : FetchNode :=
  mkFetchNode (base me) (useSoup me) (headless me) v.

(** ** Test doubles that fail *)
Module Faulty.

(** The input expression resolves to no key at all. *)
Definition no_keys : Collaborators :=
  mkCollaborators (Fixture.base_init Unbound) (fun _ _ => inr [])
    Fixture.cleanup Fixture.http_get Fixture.parse Fixture.render
    Fixture.validate.

(** The input expression is rejected. *)
Definition bad_expression : Collaborators :=
  mkCollaborators (Fixture.base_init Unbound)
    (fun _ _ => inl (Raised "ValueError"))
    Fixture.cleanup Fixture.http_get Fixture.parse Fixture.render
    Fixture.validate.

(** The loader comes back with no document; [node_config] is bound to None. *)
Definition blank_render : Collaborators :=
  mkCollaborators (Fixture.base_init (Bound None)) Fixture.input_keys
    Fixture.cleanup Fixture.http_get Fixture.parse (fun _ _ _ => inr [])
    Fixture.validate.


End Faulty.

(** * Properties of the node *)

(** ** Stepping through a run *)

Lemma untouched_refl (h : Heap) : untouched h h.
Proof. split; reflexivity. Qed.

Lemma bind_assoc {A B C} (m : M A) (k : A -> M B) (k' : B -> M C) (h : Heap) :
  bind (bind m k) k' h = bind m (fun a => bind (k a) k') h.
Proof. unfold bind. destruct (m h) as [[e | a] h']; reflexivity. Qed.

Lemma bind_ext {A B} (m : M A) (k1 k2 : A -> M B) (h : Heap) :
  (forall a h', k1 a h' = k2 a h') -> bind m k1 h = bind m k2 h.
Proof. intros Hk. unfold bind. destruct (m h) as [[e | a] h']; auto. Qed.

(** Reading the inputs off the state never changes the heap. *)
Lemma comprehension_getitem_heap (keys : list string) (h : Heap) :
  (comprehension state_getitem keys h).2 = h.
Proof.
  induction keys as [| k keys IH]; simpl; [reflexivity |].
  unfold bind at 1. unfold state_getitem at 1. unfold bind at 1. simpl.
  destruct (state h !! k) as [v |]; simpl; [| reflexivity].
  unfold bind at 1.
  destruct (comprehension state_getitem keys h) as [[e | data] h'] eqn:E;
    simpl in *; congruence.
Qed.

(** When every key is present the comprehension yields the values. *)
Lemma comprehension_getitem (keys : list string) (h : Heap) :
  Forall (fun k => is_Some (state h !! k)) keys ->
  exists data, comprehension state_getitem keys h = (inr data, h).
Proof.
  induction 1 as [| k keys [v Hv] _ [data IH]]; simpl.
  - exists []. reflexivity.
  - exists (v :: data).
    unfold bind at 1. unfold state_getitem at 1. unfold bind at 1. simpl.
    rewrite Hv. simpl. unfold bind at 1. rewrite IH. reflexivity.
Qed.

Lemma announce_run (me : FetchNode) (h : Heap) :
  (if truthy (verbose me)
   then log_call (PrintLine ("--- Executing " ++ node_name me ++ " Node ---"))
   else ret tt) h
  = (inr tt, mkHeap (self h) (state h) (calls h ++ announcement me)).
Proof.
  unfold announcement. destruct (truthy (verbose me)); simpl.
  - reflexivity.
  - unfold ret. rewrite app_nil_r. destruct h; reflexivity.
Qed.

(** Once the source is read, a run of [execute] is a run of the rest of its
    body on the announced heap. *)
Lemma execute_from_source (env : Collaborators) (h : Heap) (v : value) :
  reads_source env h v ->
  execute env h =
  bind (compressed_document env (self h) v)
       (fun document =>
          bind (list_getitem (output (self h)) 0)
               (fun key => bind (state_update key document) (fun _ => get_state)))
       (announced h).
Proof.
  intros (key & keys & Hkeys & Hkey & Hrest).
  unfold execute. unfold bind at 1. unfold get_self at 1.
  unfold bind at 1. rewrite announce_run.
  unfold bind at 1. unfold get_state at 1. simpl.
  unfold bind at 1. unfold lift at 1. rewrite Hkeys.
  destruct (comprehension_getitem keys (announced h)) as [data Hdata]; [exact Hrest |].
  unfold bind at 1. simpl.
  unfold bind at 1. unfold state_getitem at 1. unfold bind at 1. simpl.
  rewrite Hkey. simpl. unfold bind at 1.
  fold (announced h). rewrite Hdata.
  unfold bind at 1. simpl. reflexivity.
Qed.

Lemma literal_test_true (i : string) :
  In i literal_kinds ->
  String.eqb i "json_dir" || String.eqb i "xml_dir" || String.eqb i "csv_dir" = true.
Proof.
  unfold literal_kinds. simpl. intros [<- | [<- | [<- | []]]]; reflexivity.
Qed.

Lemma literal_test_false (i : string) :
  ~ In i literal_kinds ->
  String.eqb i "json_dir" || String.eqb i "xml_dir" || String.eqb i "csv_dir" = false.
Proof.
  unfold literal_kinds. simpl. intros Hnot.
  destruct (String.eqb_spec i "json_dir") as [-> | _]; [tauto |].
  destruct (String.eqb_spec i "xml_dir") as [-> | _]; [tauto |].
  destruct (String.eqb_spec i "csv_dir") as [-> | _]; [tauto |].
  reflexivity.
Qed.

(** Unfold the monad and the calls of a run whose branch is known. *)
Ltac run :=
  cbv [bind ret raise lift str_receiver call_cleanup_html call_requests_get
       call_chromium_load log_call announced list_getitem state_update
       get_state get_self self_node_config dict_getitem new_Document];
  simpl.

(** ** Local sources *)

(** C3: when the declared input kind is json_dir, xml_dir or csv_dir, the
    document written under the output key holds the source string verbatim
    with metadata source = local_dir, and the only outside call of the run is
    the optional announcement: the Cleaner is never called. *)
Theorem literal_source_is_kept_verbatim (env : Collaborators) (h : Heap)
    (source key : string) :
  In (input (self h)) literal_kinds ->
  reads_source env h (VStr source) ->
  output (self h) !! 0%nat = Some key ->
  let document := VList [VDocument (VStr source) [("source", VStr "local_dir")]] in
  execute env h
  = (inr (<[key := document]> (state h)),
     mkHeap (self h) (<[key := document]> (state h))
            (calls h ++ announcement (self h)))
  /\ forallb (fun c => negb (is_cleanup c)) (announcement (self h)) = true.
Proof.
  intros Hkind Hsource Hkey document. split.
  - rewrite (execute_from_source env h (VStr source) Hsource).
    unfold compressed_document. rewrite (literal_test_true _ Hkind).
    run. rewrite Hkey. reflexivity.
  - unfold announcement. destruct (truthy (verbose (self h))); reflexivity.
Qed.

Lemma literal_source_is_kept_verbatim_witness :
  execute (Fixture.env Unbound)
          (Fixture.heap Unbound "json_dir" None (VStr "{a: 1}"))
  = (inr (<["doc" := VList [VDocument (VStr "{a: 1}") [("source", VStr "local_dir")]]]>
            {[ "json_dir" := VStr "{a: 1}"; "other" := VInt 7 ]}),
     mkHeap (Fixture.node Unbound "json_dir" None)
            (<["doc" := VList [VDocument (VStr "{a: 1}") [("source", VStr "local_dir")]]]>
               {[ "json_dir" := VStr "{a: 1}"; "other" := VInt 7 ]})
            [])
  /\ forallb (fun c => negb (is_cleanup c)) [] = true.
Proof.
  apply (literal_source_is_kept_verbatim (Fixture.env Unbound)
           (Fixture.heap Unbound "json_dir" None (VStr "{a: 1}"))
           "{a: 1}" "doc").
  - simpl. left. reflexivity.
  - exists "json_dir", []. split; [reflexivity |]. split; [reflexivity | constructor].
  - reflexivity.
Defined.

(** C4, as the code has it: when the input kind is not a literal one and the
    source does not start with the four characters http, the source goes
    through the Cleaner once, the document written under the output key holds
    the cleaned text with metadata source = local_dir, and no call of the run
    reaches the network. *)
Theorem local_reference_is_cleaned (env : Collaborators) (h : Heap)
    (src content key : string) :
  ~ In (input (self h)) literal_kinds ->
  reads_source env h (VStr src) ->
  startswith src "http" = false ->
  cleanup_html env src None = inr content ->
  output (self h) !! 0%nat = Some key ->
  let document := VList [VDocument (VStr content) [("source", VStr "local_dir")]] in
  let log := (announcement (self h) ++ [CleanupHtml src None])%list in
  execute env h
  = (inr (<[key := document]> (state h)),
     mkHeap (self h) (<[key := document]> (state h)) (calls h ++ log))
  /\ forallb (fun c => negb (is_network c)) log = true.
Proof.
  intros Hkind Hsource Hprefix Hclean Hkey document log. split.
  - rewrite (execute_from_source env h (VStr src) Hsource).
    unfold compressed_document. rewrite (literal_test_false _ Hkind).
    run. rewrite Hprefix. simpl. rewrite Hclean. simpl. rewrite Hkey.
    subst log. rewrite app_assoc. reflexivity.
  - subst log. unfold announcement.
    destruct (truthy (verbose (self h))); reflexivity.
Qed.

Lemma local_reference_is_cleaned_witness :
  execute (Fixture.env Unbound)
          (Fixture.heap Unbound "local_dir" None (VStr "<p>hello</p>"))
  = (inr (<["doc" := VList [VDocument (VStr "cleaned <p>hello</p>")
                                       [("source", VStr "local_dir")]]]>
            {[ "local_dir" := VStr "<p>hello</p>"; "other" := VInt 7 ]}),
     mkHeap (Fixture.node Unbound "local_dir" None)
            (<["doc" := VList [VDocument (VStr "cleaned <p>hello</p>")
                                         [("source", VStr "local_dir")]]]>
               {[ "local_dir" := VStr "<p>hello</p>"; "other" := VInt 7 ]})
            [CleanupHtml "<p>hello</p>" None])
  /\ forallb (fun c => negb (is_network c)) [CleanupHtml "<p>hello</p>" None] = true.
Proof.
  apply (local_reference_is_cleaned (Fixture.env Unbound)
           (Fixture.heap Unbound "local_dir" None (VStr "<p>hello</p>"))
           "<p>hello</p>" "cleaned <p>hello</p>" "doc").
  - simpl. intros [H | [H | [H | []]]]; discriminate H.
  - exists "local_dir", []. split; [reflexivity |]. split; [reflexivity | constructor].
  - reflexivity.
  - reflexivity.
  - reflexivity.
Defined.

(** C4 as stated fails: httpd.conf does not begin with an HTTP(S) scheme
    prefix and the input kind is not literal, yet the run sends it to
    requests.get and writes no document. *)
Lemma local_reference_without_scheme_is_fetched :
  spec_http_scheme_prefix "httpd.conf" = false
  /\ ~ In (input (Fixture.node Unbound "url" None)) literal_kinds
  /\ reads_source (Fixture.env Unbound)
       (Fixture.heap Unbound "url" None (VStr "httpd.conf")) (VStr "httpd.conf")
  /\ execute (Fixture.env Unbound) (Fixture.heap Unbound "url" None (VStr "httpd.conf"))
     = (inl (Raised "MissingSchema"),
        mkHeap (Fixture.node Unbound "url" None)
               {[ "url" := VStr "httpd.conf"; "other" := VInt 7 ]}
               [RequestsGet "httpd.conf"]).
Proof.
  split; [reflexivity |].
  split; [simpl; intros [H | [H | [H | []]]]; discriminate H |].
  split; [| reflexivity].
  exists "url", []. split; [reflexivity |]. split; [reflexivity | constructor].
Qed.

(** ** Static fetch *)

(** The loop appends, to what it has so far, the hrefs of the links in order. *)
Lemma collect_hrefs_spec (links : list Tag) (link_urls : list string) :
  collect_hrefs links link_urls = (link_urls ++ hrefs links)%list.
Proof.
  revert link_urls. induction links as [| link rest IH]; intros link_urls; simpl.
  - rewrite app_nil_r. reflexivity.
  - unfold hrefs. simpl. destruct (attrs link !! "href") as [href |]; simpl.
    + rewrite IH. rewrite <- app_assoc. reflexivity.
    + apply IH.
Qed.

(** A repeated href is kept twice and an anchor without one is passed over. *)
Example collect_hrefs_repeats_and_gaps :
  collect_hrefs [mkTag "a" {[ "href" := "/a" ]}; mkTag "a" {[ "name" := "top" ]};
                 mkTag "a" {[ "href" := "/b" ]}; mkTag "a" {[ "href" := "/a" ]}] []
  = ["/a"; "/b"; "/a"].
Proof. reflexivity. Qed.

(** C2: on a 200 answer the page is parsed, the link sequence handed to the
    Cleaner is the href of every element of the page whose tag is a and
    that has one, in document order and with repetitions, and the document
    written under the output key holds the Cleaner's text for the prettified
    page and that sequence; when the body is the example page with its four
    elements html, body, a, a, the sequence is /a, /b. *)
Theorem static_fetch_extracts_links (env : Collaborators) (h : Heap)
    (src : string) (response : Response) (content key : string) :
  ~ In (input (self h)) literal_kinds ->
  reads_source env h (VStr src) ->
  startswith src "http" = true ->
  truthy (useSoup (self h)) = true ->
  requests_get env src = inr response ->
  status_code response = 200 ->
  let soup := BeautifulSoup env (text response) "html.parser" in
  let anchors := List.filter (fun t => String.eqb (tag_name t) "a") (tags soup) in
  let link_urls := omap (fun anchor => attrs anchor !! "href") anchors in
  cleanup_html env (prettify soup) (Some link_urls) = inr content ->
  output (self h) !! 0%nat = Some key ->
  let document := VList [VDocument (VStr content) []] in
  execute env h
  = (inr (<[key := document]> (state h)),
     mkHeap (self h) (<[key := document]> (state h))
            (calls h ++ announcement (self h)
             ++ [RequestsGet src; CleanupHtml (prettify soup) (Some link_urls)]))
  /\ (text response = example_body ->
      tags (BeautifulSoup env example_body "html.parser") = example_tags ->
      link_urls = ["/a"; "/b"]).
Proof.
  intros Hkind Hsource Hprefix Hsoup Hget Hstatus soup anchors link_urls
         Hclean Hkey document.
  split.
  - rewrite (execute_from_source env h (VStr src) Hsource).
    unfold compressed_document. rewrite (literal_test_false _ Hkind).
    run. rewrite Hprefix. simpl. rewrite Hsoup, Hget. simpl.
    rewrite Hstatus. simpl. rewrite collect_hrefs_spec. simpl.
    unfold hrefs, find_all. fold soup. fold anchors. fold link_urls.
    rewrite Hclean. simpl.
    rewrite Hkey. rewrite <- !app_assoc. reflexivity.
  - intros Htext Htags. subst link_urls anchors soup.
    rewrite Htext, Htags. reflexivity.
Qed.

Lemma static_fetch_extracts_links_witness :
  execute (Fixture.env Unbound)
          (Fixture.heap Unbound "url" None (VStr "http://example.com"))
  = (inr (<["doc" := VList [VDocument
              (VStr (String.concat " " ["cleaned"; prettify Fixture.example_soup; "/a"; "/b"]))
              []]]>
            {[ "url" := VStr "http://example.com"; "other" := VInt 7 ]}),
     mkHeap (Fixture.node Unbound "url" None)
            (<["doc" := VList [VDocument
                 (VStr (String.concat " " ["cleaned"; prettify Fixture.example_soup; "/a"; "/b"]))
                 []]]>
               {[ "url" := VStr "http://example.com"; "other" := VInt 7 ]})
            [RequestsGet "http://example.com";
             CleanupHtml (prettify Fixture.example_soup) (Some ["/a"; "/b"])])
  /\ (example_body = example_body ->
      tags (Fixture.parse example_body "html.parser") = example_tags ->
      ["/a"; "/b"] = ["/a"; "/b"]).
Proof.
  apply (static_fetch_extracts_links (Fixture.env Unbound)
           (Fixture.heap Unbound "url" None (VStr "http://example.com"))
           "http://example.com" (mkResponse 200 example_body)
           (String.concat " " ["cleaned"; prettify Fixture.example_soup; "/a"; "/b"])
           "doc").
  - simpl. intros [H | [H | [H | []]]]; discriminate H.
  - exists "url", []. split; [reflexivity |]. split; [reflexivity | constructor].
  - reflexivity.
  - reflexivity.
  - reflexivity.
  - reflexivity.
  - reflexivity.
  - reflexivity.
Defined.

(** C1, what the code does: on an answer other than 200 the run stops in the
    else branch with NameError for the name url, after the one GET; no
    FetchError with the address and the status is raised.  The state is left
    as it was. *)
Theorem static_fetch_failure_raises_NameError (env : Collaborators) (h : Heap)
    (src : string) (response : Response) :
  ~ In (input (self h)) literal_kinds ->
  reads_source env h (VStr src) ->
  startswith src "http" = true ->
  truthy (useSoup (self h)) = true ->
  requests_get env src = inr response ->
  status_code response <> 200 ->
  execute env h
  = (inl (NameError "url"),
     mkHeap (self h) (state h) (calls h ++ announcement (self h) ++ [RequestsGet src])).
Proof.
  intros Hkind Hsource Hprefix Hsoup Hget Hstatus.
  rewrite (execute_from_source env h (VStr src) Hsource).
  unfold compressed_document. rewrite (literal_test_false _ Hkind).
  run. rewrite Hprefix. simpl. rewrite Hsoup, Hget. simpl.
  apply Z.eqb_neq in Hstatus. rewrite Hstatus. simpl.
  rewrite <- app_assoc. reflexivity.
Qed.

Lemma static_fetch_failure_raises_NameError_witness :
  execute (Fixture.env Unbound)
          (Fixture.heap Unbound "url" None (VStr "http://example.com/missing"))
  = (inl (NameError "url"),
     mkHeap (Fixture.node Unbound "url" None)
            {[ "url" := VStr "http://example.com/missing"; "other" := VInt 7 ]}
            [RequestsGet "http://example.com/missing"]).
Proof.
  apply (static_fetch_failure_raises_NameError (Fixture.env Unbound)
           (Fixture.heap Unbound "url" None (VStr "http://example.com/missing"))
           "http://example.com/missing" (mkResponse 404 "Not Found")).
  - simpl. intros [H | [H | [H | []]]]; discriminate H.
  - exists "url", []. split; [reflexivity |]. split; [reflexivity | constructor].
  - reflexivity.
  - reflexivity.
  - reflexivity.
  - simpl. discriminate.
Defined.


(** ** Dynamic render *)

(** The constructor leaves [node_config] as the base initialiser left it. *)
Lemma FetchNode_init_node_config (env : Collaborators) (i : string) (o : list string)
    (config : option (gmap string value)) (n : string) :
  node_config (FetchNode_init env i o config n)
  = node_config (BaseNode_init env n "node" i o 1).
Proof. reflexivity. Qed.

(** With [node_config] unbound the render branch stops at its first line. *)
Lemma dynamic_unbound (env : Collaborators) (h : Heap) (src : string) :
  node_config (self h) = Unbound ->
  ~ In (input (self h)) literal_kinds ->
  reads_source env h (VStr src) ->
  startswith src "http" = true ->
  truthy (useSoup (self h)) = false ->
  execute env h
  = (inl (AttributeError "node_config"),
     mkHeap (self h) (state h) (calls h ++ announcement (self h))).
Proof.
  intros Hconfig Hkind Hsource Hprefix Hsoup.
  rewrite (execute_from_source env h (VStr src) Hsource).
  unfold compressed_document. rewrite (literal_test_false _ Hkind).
  run. rewrite Hprefix. simpl. rewrite Hsoup. simpl. rewrite Hconfig. reflexivity.
Qed.

(** With [node_config] bound the loader is called on the source with the
    proxy that attribute configures. *)
Lemma dynamic_bound (env : Collaborators) (h : Heap) (src : string)
    (config : option (gmap string value)) :
  node_config (self h) = Bound config ->
  ~ In (input (self h)) literal_kinds ->
  reads_source env h (VStr src) ->
  startswith src "http" = true ->
  truthy (useSoup (self h)) = false ->
  exists rest,
    calls (execute env h).2
    = (calls h ++ announcement (self h)
       ++ ChromiumLoad [src] (configured_proxy config) (headless (self h)) :: rest)%list.
Proof.
  intros Hconfig Hkind Hsource Hprefix Hsoup.
  rewrite (execute_from_source env h (VStr src) Hsource).
  unfold compressed_document. rewrite (literal_test_false _ Hkind).
  run. rewrite Hprefix. simpl. rewrite Hsoup. simpl. rewrite Hconfig. simpl.
  unfold configured_proxy, dict_get.
  destruct config as [d |];
    [destruct (d !! "endpoint") as [v |]; [destruct v |] |]; simpl;
    (destruct (chromium_load env _ _ _) as [e | [| page pages]]; simpl;
     [ | | destruct (cleanup_html env _ _); simpl;
           destruct (output (self h) !! 0%nat); simpl ]);
    eexists; rewrite <- ?app_assoc; simpl; reflexivity.
Qed.

(** A static fetch starts with the GET on the source. *)
Lemma static_fetch_calls_get (env : Collaborators) (h : Heap) (src : string) :
  ~ In (input (self h)) literal_kinds ->
  reads_source env h (VStr src) ->
  startswith src "http" = true ->
  truthy (useSoup (self h)) = true ->
  exists rest,
    calls (execute env h).2
    = (calls h ++ announcement (self h) ++ RequestsGet src :: rest)%list.
Proof.
  intros Hkind Hsource Hprefix Hsoup.
  rewrite (execute_from_source env h (VStr src) Hsource).
  unfold compressed_document. rewrite (literal_test_false _ Hkind).
  run. rewrite Hprefix. simpl. rewrite Hsoup. simpl.
  destruct (requests_get env src) as [e | response]; simpl;
    [| destruct (status_code response =? 200); simpl;
       [destruct (cleanup_html env _ _); simpl;
        destruct (output (self h) !! 0%nat); simpl |]];
    eexists; rewrite <- ?app_assoc; simpl; reflexivity.
Qed.

(** A local source is cleaned and nothing else is called. *)
Lemma local_calls_cleanup (env : Collaborators) (h : Heap) (src : string) :
  ~ In (input (self h)) literal_kinds ->
  reads_source env h (VStr src) ->
  startswith src "http" = false ->
  calls (execute env h).2
  = (calls h ++ announcement (self h) ++ [CleanupHtml src None])%list.
Proof.
  intros Hkind Hsource Hprefix.
  rewrite (execute_from_source env h (VStr src) Hsource).
  unfold compressed_document. rewrite (literal_test_false _ Hkind).
  run. rewrite Hprefix. simpl.
  destruct (cleanup_html env src None); simpl;
    [| destruct (output (self h) !! 0%nat); simpl];
    rewrite <- ?app_assoc; reflexivity.
Qed.

(** C9, as the code has it: the constructor never binds node_config on the
    instance, so whatever dict it is given, the attribute the render branch
    reads (source starting with http, useSoup false) is the one the base
    initialiser left.  When that is unbound the run raises AttributeError
    for node_config with no call beyond the announcement and the state as it
    was; when it is bound the loader is called on the source with the proxy
    that attribute configures. *)
Theorem render_reads_node_config_of_the_base (env : Collaborators)
    (i : string) (o : list string) (config : option (gmap string value))
    (n : string) (st : gmap string value) (log : list call) (src : string) :
  let me := FetchNode_init env i o config n in
  let h := mkHeap me st log in
  ~ In (input me) literal_kinds ->
  reads_source env h (VStr src) ->
  startswith src "http" = true ->
  truthy (useSoup me) = false ->
  node_config me = node_config (BaseNode_init env n "node" i o 1)
  /\ (node_config (BaseNode_init env n "node" i o 1) = Unbound ->
      execute env h
      = (inl (AttributeError "node_config"), mkHeap me st (log ++ announcement me)))
  /\ (forall bound,
        node_config (BaseNode_init env n "node" i o 1) = Bound bound ->
        exists rest,
          calls (execute env h).2
          = (log ++ announcement me
             ++ ChromiumLoad [src] (configured_proxy bound) (headless me) :: rest)%list).
Proof.
  intros me h Hkind Hsource Hprefix Hsoup.
  split; [reflexivity |]. split.
  - intros Hbase.
    apply (dynamic_unbound env h src Hbase Hkind Hsource Hprefix Hsoup).
  - intros bound Hbase.
    apply (dynamic_bound env h src bound Hbase Hkind Hsource Hprefix Hsoup).
Qed.

Lemma render_reads_node_config_of_the_base_witness :
  exists rest,
    calls (execute (Fixture.env (Bound None))
             (mkHeap (Fixture.node (Bound None) "url"
                        (Some {[ "useSoup" := VBool false;
                                 "endpoint" := VStr "http://proxy:3128" ]}))
                     {[ "url" := VStr "http://example.com" ]} [])).2
    = ChromiumLoad ["http://example.com"] None (VBool true) :: rest.
Proof.
  assert (Hkind : ~ In (input (Fixture.node (Bound None) "url"
                                 (Some {[ "useSoup" := VBool false;
                                          "endpoint" := VStr "http://proxy:3128" ]})))
                       literal_kinds).
  { simpl. intros [H | [H | [H | []]]]; discriminate H. }
  assert (Hsource : reads_source (Fixture.env (Bound None))
            (mkHeap (Fixture.node (Bound None) "url"
                       (Some {[ "useSoup" := VBool false;
                                "endpoint" := VStr "http://proxy:3128" ]}))
                    {[ "url" := VStr "http://example.com" ]} [])
            (VStr "http://example.com")).
  { exists "url", []. split; [reflexivity |]. split; [reflexivity | constructor]. }
  destruct (render_reads_node_config_of_the_base (Fixture.env (Bound None))
              "url" ["doc"]
              (Some {[ "useSoup" := VBool false; "endpoint" := VStr "http://proxy:3128" ]})
              "Fetch" {[ "url" := VStr "http://example.com" ]} [] "http://example.com"
              Hkind Hsource eq_refl eq_refl) as (_ & _ & Hbound).
  apply (Hbound None). reflexivity.
Defined.

(** C9 as stated fails: with a base initialiser that binds node_config to
    None, which is what the guard of line 90 allows for, a run on the render
    branch raises no AttributeError: the loader is called without a proxy and
    the document is written. *)
Lemma render_with_bound_node_config_returns :
  truthy (useSoup (Fixture.node (Bound None) "url" (Some {[ "useSoup" := VBool false ]})))
  = false
  /\ startswith "http://example.com" "http" = true
  /\ execute (Fixture.env (Bound None))
       (mkHeap (Fixture.node (Bound None) "url" (Some {[ "useSoup" := VBool false ]}))
               {[ "url" := VStr "http://example.com" ]} [])
     = (inr (<["doc" := VList [VDocument
                (VStr "cleaned <html>rendered http://example.com</html>") []]]>
               {[ "url" := VStr "http://example.com" ]}),
        mkHeap (Fixture.node (Bound None) "url" (Some {[ "useSoup" := VBool false ]}))
               (<["doc" := VList [VDocument
                    (VStr "cleaned <html>rendered http://example.com</html>") []]]>
                  {[ "url" := VStr "http://example.com" ]})
               [ChromiumLoad ["http://example.com"] None (VBool true);
                CleanupHtml "<html>rendered http://example.com</html>" None]).
Proof.
  split; [reflexivity |]. split; reflexivity.
Qed.

(** C5, what the code does: the endpoint given to the constructor never
    reaches the loader.  A node built from a dict with an endpoint is the
    node built from the same dict without it, so the two run alike: the
    render branch reads node_config off the instance, where the constructor
    stored nothing. *)
Theorem endpoint_of_constructor_is_ignored (env : Collaborators)
    (i : string) (o : list string) (d : gmap string value) (n : string)
    (v : value) (st : gmap string value) (log : list call) :
  FetchNode_init env i o (Some (<["endpoint" := v]> d)) n
  = FetchNode_init env i o (Some (delete "endpoint" d)) n
  /\ execute env (mkHeap (FetchNode_init env i o (Some (<["endpoint" := v]> d)) n) st log)
     = execute env (mkHeap (FetchNode_init env i o (Some (delete "endpoint" d)) n) st log).
Proof.
  assert (Hnode : FetchNode_init env i o (Some (<["endpoint" := v]> d)) n
                  = FetchNode_init env i o (Some (delete "endpoint" d)) n).
  { unfold FetchNode_init, dict_get.
    rewrite !lookup_insert_ne by discriminate.
    rewrite !lookup_delete_ne by discriminate.
    reflexivity. }
  split; [exact Hnode |]. rewrite Hnode. reflexivity.
Qed.

(** The same on a run: with a base initialiser that binds node_config to
    None, a node configured with an endpoint renders with no proxy. *)
Example endpoint_is_ignored_on_a_run :
  calls (execute (Fixture.env (Bound None))
           (mkHeap (Fixture.node (Bound None) "url"
                      (Some {[ "useSoup" := VBool false;
                               "endpoint" := VStr "http://proxy:3128" ]}))
                   {[ "url" := VStr "http://example.com" ]} [])).2
  = [ChromiumLoad ["http://example.com"] None (VBool true);
     CleanupHtml "<html>rendered http://example.com</html>" None].
Proof. reflexivity. Qed.

(** ** Which branch a source takes *)

(** C10: for an input kind that is not literal the branch is decided by the
    four characters http alone.  A source without them is cleaned and
    nothing else is called; a source with them, URL or not, is fetched: it is
    sent to requests.get when useSoup is set, and to the loader when it is
    not, node_config being readable on the instance as line 90 takes it to
    be. *)
Theorem remote_is_decided_by_http_prefix (env : Collaborators) (h : Heap)
    (src : string) :
  ~ In (input (self h)) literal_kinds ->
  reads_source env h (VStr src) ->
  (startswith src "http" = false ->
   calls (execute env h).2
   = (calls h ++ announcement (self h) ++ [CleanupHtml src None])%list)
  /\ (startswith src "http" = true ->
      truthy (useSoup (self h)) = true ->
      exists rest,
        calls (execute env h).2
        = (calls h ++ announcement (self h) ++ RequestsGet src :: rest)%list)
  /\ (startswith src "http" = true ->
      truthy (useSoup (self h)) = false ->
      forall config, node_config (self h) = Bound config ->
      exists rest,
        calls (execute env h).2
        = (calls h ++ announcement (self h)
           ++ ChromiumLoad [src] (configured_proxy config) (headless (self h))
              :: rest)%list).
Proof.
  intros Hkind Hsource. repeat split.
  - intros Hprefix. apply (local_calls_cleanup env h src Hkind Hsource Hprefix).
  - intros Hprefix Hsoup.
    apply (static_fetch_calls_get env h src Hkind Hsource Hprefix Hsoup).
  - intros Hprefix Hsoup config Hconfig.
    apply (dynamic_bound env h src config Hconfig Hkind Hsource Hprefix Hsoup).
Qed.

Lemma remote_is_decided_by_http_prefix_witness :
  startswith "httpd.conf" "http" = true
  /\ spec_http_scheme_prefix "httpd.conf" = false
  /\ exists rest,
       calls (execute (Fixture.env Unbound)
                (Fixture.heap Unbound "url" None (VStr "httpd.conf"))).2
       = (RequestsGet "httpd.conf" :: rest).
Proof.
  split; [reflexivity |]. split; [reflexivity |].
  assert (Hkind : ~ In (input (self (Fixture.heap Unbound "url" None (VStr "httpd.conf"))))
                       literal_kinds).
  { simpl. intros [H | [H | [H | []]]]; discriminate H. }
  assert (Hsource : reads_source (Fixture.env Unbound)
                      (Fixture.heap Unbound "url" None (VStr "httpd.conf"))
                      (VStr "httpd.conf")).
  { exists "url", []. split; [reflexivity |]. split; [reflexivity | constructor]. }
  destruct (remote_is_decided_by_http_prefix (Fixture.env Unbound)
              (Fixture.heap Unbound "url" None (VStr "httpd.conf"))
              "httpd.conf" Hkind Hsource) as (_ & Hstatic & _).
  apply (Hstatic eq_refl eq_refl).
Defined.

(** ** What a run may write *)

Section Frame.

Variable env : Collaborators.

Lemma quiet_ret {A} (a : A) (Q : A -> Prop) : Q a -> quiet (ret a) Q.
Proof. intros HQ h. split; [split; reflexivity |]. intros a' [= <-]. exact HQ. Qed.

Lemma quiet_raise {A} (e : exn) (Q : A -> Prop) : quiet (raise e) Q.
Proof. intros h. split; [split; reflexivity |]. intros a [=]. Qed.

Lemma quiet_lift {A} (r : exn + A) (Q : A -> Prop) :
  (forall a, r = inr a -> Q a) -> quiet (lift r) Q.
Proof. intros HQ h. split; [split; reflexivity |]. exact HQ. Qed.

Lemma quiet_log_call (c : call) (Q : unit -> Prop) : Q tt -> quiet (log_call c) Q.
Proof. intros HQ h. split; [split; reflexivity |]. intros [] _. exact HQ. Qed.

Lemma quiet_bind {A B} (m : M A) (k : A -> M B) (Q : A -> Prop) (R : B -> Prop) :
  quiet m Q -> (forall a, Q a -> quiet (k a) R) -> quiet (bind m k) R.
Proof.
  intros Hm Hk h. unfold bind. destruct (Hm h) as [[Hself Hstate] HQ].
  destruct (m h) as [[e | a] h']; simpl in *.
  - split; [split; assumption |]. intros b [=].
  - destruct (Hk a (HQ a eq_refl) h') as [[Hself' Hstate'] HR].
    split; [split; congruence | exact HR].
Qed.

Lemma quiet_weaken {A} (m : M A) (Q R : A -> Prop) :
  quiet m Q -> (forall a, Q a -> R a) -> quiet m R.
Proof. intros Hm HQR h. destruct (Hm h) as [Hu HQ]. split; auto. Qed.

Lemma quiet_list_getitem {A} (l : list A) (i : nat) :
  quiet (list_getitem l i) (fun _ => True).
Proof.
  unfold list_getitem. destruct (l !! i); [apply quiet_ret | apply quiet_raise]; exact I.
Qed.

Lemma quiet_state_getitem (key : string) : quiet (state_getitem key) (fun _ => True).
Proof.
  intros h. unfold state_getitem, bind, get_state. simpl.
  destruct (state h !! key); simpl; (split; [split; reflexivity | auto]).
Qed.

Lemma quiet_comprehension (keys : list string) :
  quiet (comprehension state_getitem keys) (fun _ => True).
Proof.
  intros h. rewrite comprehension_getitem_heap. split; [apply untouched_refl | auto].
Qed.

Lemma quiet_call_cleanup_html (html : string) (link_urls : option (list string)) :
  quiet (call_cleanup_html env html link_urls) (fun _ => True).
Proof.
  unfold call_cleanup_html.
  apply (quiet_bind _ _ (fun _ => True)); [apply quiet_log_call; exact I |].
  intros _ _. apply quiet_lift. auto.
Qed.

Lemma quiet_call_requests_get (url : string) :
  quiet (call_requests_get env url) (fun _ => True).
Proof.
  unfold call_requests_get.
  apply (quiet_bind _ _ (fun _ => True)); [apply quiet_log_call; exact I |].
  intros _ _. apply quiet_lift. auto.
Qed.

Lemma quiet_call_chromium_load (urls : list string) (proxies : option value)
    (hd : value) :
  quiet (call_chromium_load env urls proxies hd) (fun _ => True).
Proof.
  unfold call_chromium_load.
  apply (quiet_bind _ _ (fun _ => True)); [apply quiet_log_call; exact I |].
  intros _ _. apply quiet_lift. auto.
Qed.

Lemma quiet_self_node_config : quiet self_node_config (fun _ => True).
Proof.
  intros h. unfold self_node_config, bind, get_self. simpl.
  destruct (node_config (self h)); simpl; (split; [split; reflexivity | auto]).
Qed.

Lemma quiet_one_document (m : M string) (metadata : list (string * value)) :
  quiet m (fun _ => True) ->
  quiet (bind m (fun content => ret (VList [VDocument (VStr content) metadata])))
        one_document.
Proof.
  intros Hm. apply (quiet_bind _ _ (fun _ => True)); [exact Hm |].
  intros content _. apply quiet_ret. exists (VStr content), metadata. reflexivity.
Qed.

(** Every branch of lines 67-105 leaves node and state alone and, when it
    returns, returns a list of one document. *)
Lemma quiet_compressed_document (me : FetchNode) (source : value) :
  quiet (compressed_document env me source) one_document.
Proof.
  unfold compressed_document.
  destruct (String.eqb (input me) "json_dir" || String.eqb (input me) "xml_dir"
            || String.eqb (input me) "csv_dir").
  { apply (quiet_bind _ _ (fun d => exists c m, d = VDocument c m)).
    - unfold new_Document.
      destruct source;
        try (apply quiet_ret; eexists _, _; reflexivity);
        (apply (quiet_bind _ _ (fun _ => True)); [apply quiet_lift; auto |];
         intros content _; apply quiet_ret; eexists _, _; reflexivity).
    - intros d (c & m & ->). apply quiet_ret. exists c, m. reflexivity. }
  apply (quiet_bind _ _ (fun _ => True)).
  { unfold str_receiver. destruct source; (apply quiet_raise || (apply quiet_ret; exact I)). }
  intros src _. destruct (negb (startswith src "http")).
  { apply quiet_one_document, quiet_call_cleanup_html. }
  destruct (truthy (useSoup me)).
  - apply (quiet_bind _ _ (fun _ => True)); [apply quiet_call_requests_get |].
    intros response _. destruct (status_code response =? 200).
    + apply quiet_one_document, quiet_call_cleanup_html.
    + apply quiet_raise.
  - apply (quiet_bind _ _ (fun _ => True)); [apply quiet_self_node_config |].
    intros config _.
    apply (quiet_bind _ _ (fun _ => True)).
    { destruct config as [d |]; [| apply quiet_call_chromium_load].
      destruct (negb (is_None (dict_get d "endpoint" VNone)));
        [| apply quiet_call_chromium_load].
      apply (quiet_bind _ _ (fun _ => True)).
      - unfold dict_getitem. destruct (d !! "endpoint");
          [apply quiet_ret; exact I | apply quiet_raise].
      - intros endpoint _. apply quiet_call_chromium_load. }
    intros document _.
    apply (quiet_bind _ _ (fun _ => True)); [apply quiet_list_getitem |].
    intros page_content _.
    apply quiet_one_document, quiet_call_cleanup_html.
Qed.

Lemma quiet_before_update (me : FetchNode) : quiet (before_update env me) one_document.
Proof.
  unfold before_update.
  apply (quiet_bind _ _ (fun _ => True)).
  { destruct (truthy (verbose me)); [apply quiet_log_call | apply quiet_ret]; exact I. }
  intros _ _. apply (quiet_bind _ _ (fun _ => True)).
  { intros h. split; [apply untouched_refl | auto]. }
  intros st _. apply (quiet_bind _ _ (fun _ => True)); [apply quiet_lift; auto |].
  intros input_keys _.
  apply (quiet_bind _ _ (fun _ => True)); [apply quiet_comprehension |].
  intros input_data _.
  apply (quiet_bind _ _ (fun _ => True)); [apply quiet_list_getitem |].
  intros source _. apply quiet_compressed_document.
Qed.

(** [execute] is the quiet part followed by the one write. *)
Lemma execute_split (h : Heap) :
  execute env h
  = bind (before_update env (self h))
         (fun document =>
            bind (list_getitem (output (self h)) 0)
                 (fun key => bind (state_update key document) (fun _ => get_state)))
         h.
Proof.
  unfold execute, before_update.
  unfold bind at 1. unfold get_self at 1.
  repeat (rewrite bind_assoc; apply bind_ext; intros).
  reflexivity.
Qed.

End Frame.

(** A run leaves the node as it was; when it raises, the state too; when it
    returns, the state is the old one with a list of one document under the
    first output key, and that state is what it returns. *)
Lemma execute_outcome (env : Collaborators) (h : Heap) :
  self (execute env h).2 = self h
  /\ match (execute env h).1 with
     | inl _ => state (execute env h).2 = state h
     | inr st' =>
         state (execute env h).2 = st'
         /\ exists key document,
              output (self h) !! 0%nat = Some key
              /\ one_document document
              /\ st' = <[key := document]> (state h)
     end.
Proof.
  rewrite execute_split.
  destruct (quiet_before_update env (self h) h) as [[Hself Hstate] Hdoc].
  unfold bind.
  destruct (before_update env (self h) h) as [[e | document] h']; simpl in *.
  - auto.
  - unfold list_getitem.
    destruct (output (self h) !! 0%nat) as [key |]; simpl; [| auto].
    split; [exact Hself |]. split; [reflexivity |].
    exists key, document. rewrite Hstate. auto.
Qed.

(** C6: whenever a run returns, the value under the output key of the state
    it returns is a list holding exactly one document. *)
Theorem execute_writes_one_document (env : Collaborators) (h : Heap)
    (st' : gmap string value) :
  (execute env h).1 = inr st' ->
  exists key content metadata,
    output (self h) !! 0%nat = Some key
    /\ st' !! key = Some (VList [VDocument content metadata])
    /\ state (execute env h).2 = st'.
Proof.
  intros Hrun. destruct (execute_outcome env h) as [_ Hout].
  rewrite Hrun in Hout.
  destruct Hout as (Hstate & key & document & Hkey & (content & metadata & ->) & ->).
  exists key, content, metadata. split; [exact Hkey |]. split; [| exact Hstate].
  apply lookup_insert_eq.
Qed.

Lemma execute_writes_one_document_witness :
  (execute (Fixture.env (Bound None))
     (Fixture.heap (Bound None) "url" (Some {[ "useSoup" := VBool false ]})
        (VStr "http://example.com"))).1
  = inr (<["doc" := VList [VDocument
                             (VStr "cleaned <html>rendered http://example.com</html>") []]]>
           {[ "url" := VStr "http://example.com"; "other" := VInt 7 ]})
  /\ exists key content metadata,
       output (Fixture.node (Bound None) "url" (Some {[ "useSoup" := VBool false ]}))
         !! 0%nat = Some key
       /\ (<["doc" := VList [VDocument
                              (VStr "cleaned <html>rendered http://example.com</html>") []]]>
            ({[ "url" := VStr "http://example.com"; "other" := VInt 7 ]}
             : gmap string value)) !! key
          = Some (VList [VDocument content metadata])
       /\ state (execute (Fixture.env (Bound None))
                   (Fixture.heap (Bound None) "url" (Some {[ "useSoup" := VBool false ]})
                      (VStr "http://example.com"))).2
          = <["doc" := VList [VDocument
                                (VStr "cleaned <html>rendered http://example.com</html>") []]]>
              {[ "url" := VStr "http://example.com"; "other" := VInt 7 ]}.
Proof.
  split; [reflexivity |].
  apply (execute_writes_one_document (Fixture.env (Bound None))
           (Fixture.heap (Bound None) "url" (Some {[ "useSoup" := VBool false ]})
              (VStr "http://example.com"))).
  reflexivity.
Defined.

(** C7: whatever a run does, every key of the state other than the first
    output key holds after the run what it held before. *)
Theorem execute_keeps_other_keys (env : Collaborators) (h : Heap) (k : string) :
  output (self h) !! 0%nat <> Some k ->
  state (execute env h).2 !! k = state h !! k.
Proof.
  intros Hother. destruct (execute_outcome env h) as [_ Hout].
  destruct (execute env h).1 as [e | st'].
  - rewrite Hout. reflexivity.
  - destruct Hout as (-> & key & document & Hkey & _ & ->).
    apply lookup_insert_ne. intros ->. apply Hother. exact Hkey.
Qed.

Lemma execute_keeps_other_keys_witness :
  state (execute (Fixture.env Unbound)
           (Fixture.heap Unbound "url" None (VStr "http://example.com"))).2
    !! "other"
  = ({[ "url" := VStr "http://example.com"; "other" := VInt 7 ]}
     : gmap string value) !! "other".
Proof.
  apply (execute_keeps_other_keys (Fixture.env Unbound)
           (Fixture.heap Unbound "url" None (VStr "http://example.com")) "other").
  simpl. discriminate.
Defined.

(** C8: without a dict, or with a dict that lacks the key, the constructor
    sets useSoup and headless to True and verbose to False; and no run of
    execute changes the node. *)
Theorem flags_default_and_stay (env : Collaborators) :
  (forall i o n,
      useSoup (FetchNode_init env i o None n) = VBool true
      /\ headless (FetchNode_init env i o None n) = VBool true
      /\ verbose (FetchNode_init env i o None n) = VBool false)
  /\ (forall i o d n,
         (d !! "useSoup" = None ->
          useSoup (FetchNode_init env i o (Some d) n) = VBool true)
         /\ (d !! "headless" = None ->
             headless (FetchNode_init env i o (Some d) n) = VBool true)
         /\ (d !! "verbose" = None ->
             verbose (FetchNode_init env i o (Some d) n) = VBool false))
  /\ (forall h, self (execute env h).2 = self h).
Proof.
  split; [| split].
  - intros i o n. repeat split.
  - intros i o d n. unfold FetchNode_init, dict_get. simpl.
    repeat split; intros ->; reflexivity.
  - intros h. apply (execute_outcome env h).
Qed.

Lemma flags_default_and_stay_witness :
  useSoup (Fixture.node Unbound "url" (Some {[ "endpoint" := VStr "http://proxy:3128" ]}))
  = VBool true
  /\ self (execute (Fixture.env Unbound)
             (Fixture.heap Unbound "url" None (VStr "http://example.com"))).2
     = Fixture.node Unbound "url" None.
Proof.
  destruct (flags_default_and_stay (Fixture.env Unbound)) as (_ & Hdict & Hstay).
  split.
  - apply (Hdict "url" ["doc"] {[ "endpoint" := VStr "http://proxy:3128" ]} "Fetch").
    reflexivity.
  - apply (Hstay (Fixture.heap Unbound "url" None (VStr "http://example.com"))).
Defined.

(** * Errors and edges of [execute] *)

(** ** Before the source is known *)

(** The comprehension stops at the first key the state lacks. *)
Lemma comprehension_getitem_missing (present : list string) (key : string)
    (rest : list string) (h : Heap) :
  Forall (fun k => is_Some (state h !! k)) present ->
  state h !! key = None ->
  comprehension state_getitem (present ++ key :: rest)%list h = (inl (KeyError key), h).
Proof.
  intros Hpresent Hkey.
  induction Hpresent as [| k present [v Hv] _ IH]; simpl.
  - unfold bind at 1. unfold state_getitem at 1. unfold bind at 1. simpl.
    rewrite Hkey. reflexivity.
  - unfold bind at 1. unfold state_getitem at 1. unfold bind at 1. simpl.
    rewrite Hv. simpl. unfold bind at 1. rewrite IH. reflexivity.
Qed.

(** The run up to the reading of the input keys. *)
Lemma execute_from_keys (env : Collaborators) (h : Heap) :
  execute env h =
  bind (lift (get_input_keys env (self h) (state h)))
    (fun input_keys =>
       bind (comprehension state_getitem input_keys)
         (fun input_data =>
            bind (list_getitem input_data 0)
              (fun source =>
                 bind (compressed_document env (self h) source)
                   (fun document =>
                      bind (list_getitem (output (self h)) 0)
                        (fun key =>
                           bind (state_update key document) (fun _ => get_state))))))
    (announced h).
Proof.
  unfold execute. unfold bind at 1. unfold get_self at 1.
  unfold bind at 1. rewrite announce_run.
  unfold bind at 1. unfold get_state at 1. reflexivity.
Qed.

(** X1: when get_input_keys returns a list holding a key that the state
    lacks, state[key] at line 64 raises KeyError for the first such key of
    the list; nothing is fetched, cleaned or written. *)
Theorem missing_input_key_raises_KeyError (env : Collaborators) (h : Heap)
    (present : list string) (key : string) (rest : list string) :
  get_input_keys env (self h) (state h) = inr (present ++ key :: rest)%list ->
  Forall (fun k => is_Some (state h !! k)) present ->
  state h !! key = None ->
  execute env h
  = (inl (KeyError key),
     mkHeap (self h) (state h) (calls h ++ announcement (self h))).
Proof.
  intros Hkeys Hpresent Hkey.
  rewrite execute_from_keys. unfold bind at 1. unfold lift at 1. rewrite Hkeys.
  unfold bind at 1.
  rewrite (comprehension_getitem_missing present key rest (announced h) Hpresent Hkey).
  reflexivity.
Qed.

Lemma missing_input_key_raises_KeyError_witness :
  execute (Fixture.env Unbound)
          (mkHeap (Fixture.node Unbound "url" None) {[ "other" := VInt 7 ]} [])
  = (inl (KeyError "url"),
     mkHeap (Fixture.node Unbound "url" None) {[ "other" := VInt 7 ]} []).
Proof.
  pose proof (missing_input_key_raises_KeyError (Fixture.env Unbound)
           (mkHeap (Fixture.node Unbound "url" None) {[ "other" := VInt 7 ]} [])
           [] "url" []) as W.
  simpl in W. apply W.
  - reflexivity.
  - constructor.
  - reflexivity.
Defined.

(** X2: when the input expression resolves to no key, the run raises
    IndexError at input_data[0]; nothing is fetched, cleaned or written. *)
Theorem no_input_key_raises_IndexError (env : Collaborators) (h : Heap) :
  get_input_keys env (self h) (state h) = inr [] ->
  execute env h
  = (inl IndexError, mkHeap (self h) (state h) (calls h ++ announcement (self h))).
Proof.
  intros Hkeys. rewrite execute_from_keys.
  unfold bind at 1. unfold lift at 1. rewrite Hkeys. reflexivity.
Qed.

Lemma no_input_key_raises_IndexError_witness :
  execute Faulty.no_keys
          (mkHeap (FetchNode_init Faulty.no_keys "url" ["doc"] None "Fetch")
                  {[ "url" := VStr "http://example.com" ]} [])
  = (inl IndexError,
     mkHeap (FetchNode_init Faulty.no_keys "url" ["doc"] None "Fetch")
            {[ "url" := VStr "http://example.com" ]} []).
Proof.
  pose proof (no_input_key_raises_IndexError Faulty.no_keys
           (mkHeap (FetchNode_init Faulty.no_keys "url" ["doc"] None "Fetch")
                   {[ "url" := VStr "http://example.com" ]} [])) as W.
  simpl in W. apply W.
  reflexivity.
Defined.

(** X3: an exception of get_input_keys leaves execute as it is; the only call
    before it is the announcement, and the state is as it was. *)
Theorem input_expression_error_propagates (env : Collaborators) (h : Heap)
    (e : exn) :
  get_input_keys env (self h) (state h) = inl e ->
  execute env h
  = (inl e, mkHeap (self h) (state h) (calls h ++ announcement (self h))).
Proof.
  intros Hkeys. rewrite execute_from_keys.
  unfold bind at 1. unfold lift at 1. rewrite Hkeys. reflexivity.
Qed.

Lemma input_expression_error_propagates_witness :
  execute Faulty.bad_expression
          (mkHeap (FetchNode_init Faulty.bad_expression "a &" ["doc"] None "Fetch")
                  {[ "a" := VStr "http://example.com" ]} [])
  = (inl (Raised "ValueError"),
     mkHeap (FetchNode_init Faulty.bad_expression "a &" ["doc"] None "Fetch")
            {[ "a" := VStr "http://example.com" ]} []).
Proof.
  pose proof (input_expression_error_propagates Faulty.bad_expression
           (mkHeap (FetchNode_init Faulty.bad_expression "a &" ["doc"] None "Fetch")
                   {[ "a" := VStr "http://example.com" ]} [])
           (Raised "ValueError")) as W.
  simpl in W. apply W.
  reflexivity.
Defined.



(** ** The render branch when [node_config] can be read *)

(** X5: with node_config bound, a source starting with http and useSoup
    false, the loader is called once on the one-element list holding the
    source, with the proxy node_config configures and the node's headless
    flag; the first loaded page alone goes through the Cleaner, with no link
    list, and the document written under the output key holds that text and
    no metadata. *)
Theorem dynamic_render_writes_first_page (env : Collaborators) (h : Heap)
    (src : string) (config : option (gmap string value))
    (page : string) (pages : list string) (content key : string) :
  node_config (self h) = Bound config ->
  ~ In (input (self h)) literal_kinds ->
  reads_source env h (VStr src) ->
  startswith src "http" = true ->
  truthy (useSoup (self h)) = false ->
  chromium_load env [src] (configured_proxy config) (headless (self h))
  = inr (page :: pages) ->
  cleanup_html env page None = inr content ->
  output (self h) !! 0%nat = Some key ->
  execute env h
  = (inr (<[key := VList [VDocument (VStr content) []]]> (state h)),
     mkHeap (self h) (<[key := VList [VDocument (VStr content) []]]> (state h))
            (calls h ++ announcement (self h)
             ++ [ChromiumLoad [src] (configured_proxy config) (headless (self h));
                 CleanupHtml page None])).
Proof.
  intros Hconfig Hkind Hsource Hprefix Hsoup Hload Hclean Hkey.
  rewrite (execute_from_source env h (VStr src) Hsource).
  unfold compressed_document. rewrite (literal_test_false _ Hkind).
  run. rewrite Hprefix. simpl. rewrite Hsoup. simpl. rewrite Hconfig. simpl.
  unfold configured_proxy, dict_get in *.
  destruct config as [d |];
    [destruct (d !! "endpoint") as [v |]; [destruct v |] |]; simpl in *;
    rewrite Hload; simpl; rewrite Hclean; simpl; rewrite Hkey;
    rewrite <- !app_assoc; reflexivity.
Qed.

Lemma dynamic_render_writes_first_page_witness :
  execute (Fixture.env (Bound (Some {[ "endpoint" := VStr "http://proxy:3128" ]})))
    (mkHeap (Fixture.node (Bound (Some {[ "endpoint" := VStr "http://proxy:3128" ]}))
               "url" (Some {[ "useSoup" := VBool false; "headless" := VBool false ]}))
            {[ "url" := VStr "http://example.com" ]} [])
  = (inr (<["doc" := VList [VDocument
                              (VStr "cleaned <html>rendered http://example.com</html>")
                              []]]>
            {[ "url" := VStr "http://example.com" ]}),
     mkHeap (Fixture.node (Bound (Some {[ "endpoint" := VStr "http://proxy:3128" ]}))
               "url" (Some {[ "useSoup" := VBool false; "headless" := VBool false ]}))
            (<["doc" := VList [VDocument
                                 (VStr "cleaned <html>rendered http://example.com</html>")
                                 []]]>
               {[ "url" := VStr "http://example.com" ]})
            [ChromiumLoad ["http://example.com"] (Some (VStr "http://proxy:3128"))
                          (VBool false);
             CleanupHtml "<html>rendered http://example.com</html>" None]).
Proof.
  pose proof (dynamic_render_writes_first_page
           (Fixture.env (Bound (Some {[ "endpoint" := VStr "http://proxy:3128" ]})))
           (mkHeap (Fixture.node (Bound (Some {[ "endpoint" := VStr "http://proxy:3128" ]}))
                      "url" (Some {[ "useSoup" := VBool false; "headless" := VBool false ]}))
                   {[ "url" := VStr "http://example.com" ]} [])
           "http://example.com" (Some {[ "endpoint" := VStr "http://proxy:3128" ]})
           "<html>rendered http://example.com</html>" []
           "cleaned <html>rendered http://example.com</html>" "doc") as W.
  simpl in W. apply W.
  - reflexivity.
  - intros [H | [H | [H | []]]]; discriminate H.
  - exists "url", []. split; [reflexivity |]. split; [reflexivity | constructor].
  - reflexivity.
  - reflexivity.
  - reflexivity.
  - reflexivity.
  - reflexivity.
Defined.

(** X6: when the loader comes back with an empty list, document[0] raises
    IndexError: the Cleaner is not called and nothing is written. *)
Theorem empty_render_raises_IndexError (env : Collaborators) (h : Heap)
    (src : string) (config : option (gmap string value)) :
  node_config (self h) = Bound config ->
  ~ In (input (self h)) literal_kinds ->
  reads_source env h (VStr src) ->
  startswith src "http" = true ->
  truthy (useSoup (self h)) = false ->
  chromium_load env [src] (configured_proxy config) (headless (self h)) = inr [] ->
  execute env h
  = (inl IndexError,
     mkHeap (self h) (state h)
            (calls h ++ announcement (self h)
             ++ [ChromiumLoad [src] (configured_proxy config) (headless (self h))])).
Proof.
  intros Hconfig Hkind Hsource Hprefix Hsoup Hload.
  rewrite (execute_from_source env h (VStr src) Hsource).
  unfold compressed_document. rewrite (literal_test_false _ Hkind).
  run. rewrite Hprefix. simpl. rewrite Hsoup. simpl. rewrite Hconfig. simpl.
  unfold configured_proxy, dict_get in *.
  destruct config as [d |];
    [destruct (d !! "endpoint") as [v |]; [destruct v |] |]; simpl in *;
    rewrite Hload; simpl; rewrite <- !app_assoc; reflexivity.
Qed.

Lemma empty_render_raises_IndexError_witness :
  execute Faulty.blank_render
    (mkHeap (FetchNode_init Faulty.blank_render "url" ["doc"]
               (Some {[ "useSoup" := VBool false ]}) "Fetch")
            {[ "url" := VStr "http://example.com" ]} [])
  = (inl IndexError,
     mkHeap (FetchNode_init Faulty.blank_render "url" ["doc"]
               (Some {[ "useSoup" := VBool false ]}) "Fetch")
            {[ "url" := VStr "http://example.com" ]}
            [ChromiumLoad ["http://example.com"] None (VBool true)]).
Proof.
  pose proof (empty_render_raises_IndexError Faulty.blank_render
           (mkHeap (FetchNode_init Faulty.blank_render "url" ["doc"]
                      (Some {[ "useSoup" := VBool false ]}) "Fetch")
                   {[ "url" := VStr "http://example.com" ]} [])
           "http://example.com" None) as W.
  simpl in W. apply W.
  - reflexivity.
  - intros [H | [H | [H | []]]]; discriminate H.
  - exists "url", []. split; [reflexivity |]. split; [reflexivity | constructor].
  - reflexivity.
  - reflexivity.
  - reflexivity.
Defined.

(** ** Exceptions of the collaborators *)



(** ** A node without an output key *)

(** X8: a node whose output list is empty never returns: every run ends in
    an exception and leaves the state as it was.  The key is looked up only
    after the document is built, so for a literal input kind and a string
    source the exception is the IndexError of output[0]. *)
Theorem no_output_key_never_returns (env : Collaborators) (h : Heap) :
  output (self h) = [] ->
  (exists e, (execute env h).1 = inl e)
  /\ state (execute env h).2 = state h
  /\ (forall source : string,
        In (input (self h)) literal_kinds ->
        reads_source env h (VStr source) ->
        (execute env h).1 = inl IndexError).
Proof.
  intros Hout. destruct (execute_outcome env h) as [_ Hrun].
  split; [| split].
  - destruct (execute env h).1 as [e | st']; [exists e; reflexivity |].
    destruct Hrun as (_ & key & _ & Hkey & _). rewrite Hout in Hkey. discriminate Hkey.
  - destruct (execute env h).1 as [e | st']; [exact Hrun |].
    destruct Hrun as (_ & key & _ & Hkey & _). rewrite Hout in Hkey. discriminate Hkey.
  - intros source Hkind Hsource.
    rewrite (execute_from_source env h (VStr source) Hsource).
    unfold compressed_document. rewrite (literal_test_true _ Hkind).
    run. rewrite Hout. reflexivity.
Qed.

Lemma no_output_key_never_returns_witness :
  (exists e,
      (execute (Fixture.env Unbound)
         (mkHeap (FetchNode_init (Fixture.env Unbound) "json_dir" [] None "Fetch")
                 {[ "json_dir" := VStr "{a: 1}" ]} [])).1 = inl e)
  /\ state (execute (Fixture.env Unbound)
              (mkHeap (FetchNode_init (Fixture.env Unbound) "json_dir" [] None "Fetch")
                      {[ "json_dir" := VStr "{a: 1}" ]} [])).2
     = {[ "json_dir" := VStr "{a: 1}" ]}
  /\ (forall source : string,
        In "json_dir" literal_kinds ->
        reads_source (Fixture.env Unbound)
          (mkHeap (FetchNode_init (Fixture.env Unbound) "json_dir" [] None "Fetch")
                  {[ "json_dir" := VStr "{a: 1}" ]} []) (VStr source) ->
        (execute (Fixture.env Unbound)
           (mkHeap (FetchNode_init (Fixture.env Unbound) "json_dir" [] None "Fetch")
                   {[ "json_dir" := VStr "{a: 1}" ]} [])).1 = inl IndexError).
Proof.
  pose proof (no_output_key_never_returns (Fixture.env Unbound)
           (mkHeap (FetchNode_init (Fixture.env Unbound) "json_dir" [] None "Fetch")
                   {[ "json_dir" := VStr "{a: 1}" ]} [])) as W.
  simpl in W. apply W. reflexivity.
Defined.

(** ** How much a run calls *)

Ltac budget_done :=
  first
    [ exists []; split; [rewrite app_nil_r; reflexivity |];
      repeat split; simpl; lia
    | eexists; split; [rewrite <- ?app_assoc; simpl; reflexivity |];
      repeat split; simpl; lia ].

(** Building the document calls within the budget. *)
Lemma compressed_document_budget (env : Collaborators) (me : FetchNode)
    (source : value) (h : Heap) :
  exists log,
    calls (compressed_document env me source h).2 = (calls h ++ log)%list
    /\ within_budget log.
Proof.
  unfold compressed_document, within_budget.
  destruct (String.eqb (input me) "json_dir" || String.eqb (input me) "xml_dir"
            || String.eqb (input me) "csv_dir").
  { unfold new_Document, bind, lift, ret.
    destruct source; simpl; try budget_done;
      destruct (validate_page_content env _); simpl; budget_done. }
  destruct source; try budget_done.
  run. destruct (startswith s "http"); simpl.
  - destruct (truthy (useSoup me)); simpl.
    + destruct (requests_get env s) as [e | response]; simpl; [budget_done |].
      destruct (status_code response =? 200); simpl; [| budget_done].
      destruct (cleanup_html env _ _); simpl; budget_done.
    + destruct (node_config (self h)) as [| config]; simpl; [budget_done |].
      destruct config as [d |];
        [destruct (negb (is_None (dict_get d "endpoint" VNone)));
         [destruct (d !! "endpoint") |] |];
        simpl; try budget_done;
        (destruct (chromium_load env _ _ _) as [e | [| page pages]]; simpl;
         [budget_done | budget_done |
          destruct (cleanup_html env _ _); simpl; budget_done]).
  - destruct (cleanup_html env s None); simpl; budget_done.
Qed.

(** X9: whatever the inputs and whatever the collaborators answer, a run
    calls, after the announcement, at most one fetch (requests.get or the
    loader) and the Cleaner at most once, and prints nothing more: there is
    no retry, no second strategy and no output on the failure path. *)
Theorem execute_call_budget (env : Collaborators) (h : Heap) :
  exists log,
    calls (execute env h).2 = (calls h ++ announcement (self h) ++ log)%list
    /\ within_budget log.
Proof.
  rewrite execute_from_keys.
  unfold bind at 1. unfold lift at 1.
  destruct (get_input_keys env (self h) (state h)) as [e | input_keys];
    [unfold announced; simpl; unfold within_budget; exists [];
     rewrite app_nil_r; repeat split; simpl; lia |].
  unfold bind at 1.
  pose proof (comprehension_getitem_heap input_keys (announced h)) as Hheap.
  destruct (comprehension state_getitem input_keys (announced h))
    as [[e | input_data] h1]; simpl in Hheap; subst h1;
    [unfold announced; simpl; unfold within_budget; exists [];
     rewrite app_nil_r; repeat split; simpl; lia |].
  unfold bind at 1. unfold list_getitem at 1.
  destruct (input_data !! 0%nat) as [source |]; simpl;
    [| unfold within_budget; exists [];
       rewrite app_nil_r; repeat split; simpl; lia].
  destruct (compressed_document_budget env (self h) source (announced h))
    as (log & Hlog & Hbudget).
  exists log. split; [| exact Hbudget].
  unfold bind at 1.
  destruct (compressed_document env (self h) source (announced h))
    as [[e | document] h2]; simpl in *.
  - rewrite Hlog. rewrite <- app_assoc. reflexivity.
  - unfold bind, list_getitem, state_update, get_state, ret, raise.
    destruct (output (self h) !! 0%nat); simpl;
      rewrite Hlog; rewrite <- app_assoc; reflexivity.
Qed.

(** ** The verbose flag *)

(** What the comprehension yields depends on the state alone. *)
Lemma comprehension_getitem_state (keys : list string) (a b : Heap) :
  state a = state b ->
  (comprehension state_getitem keys a).1 = (comprehension state_getitem keys b).1.
Proof.
  intros Hstate. induction keys as [| k keys IH]; simpl; [reflexivity |].
  unfold bind at 1 3. unfold state_getitem at 1 3. unfold bind at 1 3. simpl.
  rewrite <- Hstate. destruct (state a !! k) as [v |]; simpl; [| reflexivity].
  unfold bind at 1 2.
  pose proof (comprehension_getitem_heap keys a) as Ha.
  pose proof (comprehension_getitem_heap keys b) as Hb.
  destruct (comprehension state_getitem keys a) as [[ea | da] a'];
    destruct (comprehension state_getitem keys b) as [[eb | db] b'];
    simpl in *; congruence.
Qed.

Ltac same_done :=
  repeat split; try reflexivity;
  first
    [ exists []; split; rewrite app_nil_r; reflexivity
    | eexists; split; rewrite <- ?app_assoc; simpl; reflexivity ].

(** Building the document does not look at the verbose flag, nor at what
    has been called so far. *)
Lemma compressed_document_verbose (env : Collaborators) (me : FetchNode)
    (v : value) (source : value) (a b : Heap) :
  node_config (self a) = node_config (self b) ->
  (compressed_document env me source a).1
  = (compressed_document env (with_verbose v me) source b).1
  /\ exists log,
       calls (compressed_document env me source a).2 = (calls a ++ log)%list
       /\ calls (compressed_document env (with_verbose v me) source b).2
          = (calls b ++ log)%list.
Proof.
  intros Hconfig. unfold compressed_document, with_verbose. simpl.
  destruct (String.eqb (input me) "json_dir" || String.eqb (input me) "xml_dir"
            || String.eqb (input me) "csv_dir").
  { unfold new_Document, bind, lift, ret.
    destruct source; simpl; try same_done;
      destruct (validate_page_content env _); simpl; same_done. }
  destruct source; try same_done.
  run. destruct (startswith s "http"); simpl.
  - destruct (truthy (useSoup me)); simpl.
    + destruct (requests_get env s) as [e | response]; simpl; [same_done |].
      destruct (status_code response =? 200); simpl; [| same_done].
      destruct (cleanup_html env _ _); simpl; same_done.
    + rewrite <- Hconfig.
      destruct (node_config (self a)) as [| config]; simpl; [same_done |].
      destruct config as [d |];
        [destruct (negb (is_None (dict_get d "endpoint" VNone)));
         [destruct (d !! "endpoint") |] |];
        simpl; try same_done;
        (destruct (chromium_load env _ _ _) as [e | [| page pages]]; simpl;
         [same_done | same_done |
          destruct (cleanup_html env _ _); simpl; same_done]).
  - destruct (cleanup_html env s None); simpl; same_done.
Qed.

(** X10: the verbose flag decides the announcement and nothing else.  Run
    with the flag set to any other value (the input expression resolving to
    the same keys), the node gives the same result and the same state, and
    makes the same calls after the announcement. *)
Theorem verbose_only_announces (env : Collaborators) (h : Heap) (v : value) :
  get_input_keys env (with_verbose v (self h)) (state h)
  = get_input_keys env (self h) (state h) ->
  (execute env (mkHeap (with_verbose v (self h)) (state h) (calls h))).1
  = (execute env h).1
  /\ state (execute env (mkHeap (with_verbose v (self h)) (state h) (calls h))).2
     = state (execute env h).2
  /\ exists log,
       calls (execute env h).2
       = (calls h ++ announcement (self h) ++ log)%list
       /\ calls (execute env (mkHeap (with_verbose v (self h)) (state h) (calls h))).2
          = (calls h ++ announcement (with_verbose v (self h)) ++ log)%list.
Proof.
  intros Hkeys.
  set (h' := mkHeap (with_verbose v (self h)) (state h) (calls h)).
  destruct (execute_outcome env h) as [_ Hout].
  destruct (execute_outcome env h') as [_ Hout'].
  assert (Hrun : (execute env h').1 = (execute env h).1
                 /\ exists log,
                      calls (execute env h).2
                      = (calls h ++ announcement (self h) ++ log)%list
                      /\ calls (execute env h').2
                         = (calls h ++ announcement (with_verbose v (self h)) ++ log)%list).
  { clear Hout Hout'.
    rewrite !execute_from_keys. subst h'. simpl. rewrite Hkeys.
    set (a := announced h).
    set (b := announced (mkHeap (with_verbose v (self h)) (state h) (calls h))).
    assert (Hca : calls a = (calls h ++ announcement (self h))%list) by reflexivity.
    assert (Hcb : calls b = (calls h ++ announcement (with_verbose v (self h)))%list)
      by reflexivity.
    assert (Hstate : state a = state b) by reflexivity.
    assert (Hconfig : node_config (self a) = node_config (self b)) by reflexivity.
    clearbody a b.
    unfold bind, lift.
    destruct (get_input_keys env (self h) (state h)) as [e | input_keys].
    { split; [reflexivity |]. exists []. rewrite !app_nil_r. split; [exact Hca | exact Hcb]. }
    pose proof (comprehension_getitem_heap input_keys a) as Ha.
    pose proof (comprehension_getitem_heap input_keys b) as Hb.
    pose proof (comprehension_getitem_state input_keys a b Hstate) as Hsame.
    destruct (comprehension state_getitem input_keys a) as [[ea | input_data] ha];
      destruct (comprehension state_getitem input_keys b) as [[eb | input_data'] hb];
      simpl in Ha, Hb, Hsame; subst ha hb; try discriminate Hsame.
    { injection Hsame as ->. split; [reflexivity |]. exists [].
      rewrite !app_nil_r. split; [exact Hca | exact Hcb]. }
    injection Hsame as ->.
    unfold list_getitem.
    destruct (input_data' !! 0%nat) as [source |]; simpl.
    2:{ split; [reflexivity |]. exists []. rewrite !app_nil_r. split; [exact Hca | exact Hcb]. }
    destruct (compressed_document_verbose env (self h) v source a b Hconfig)
      as (Hres & log & Hla & Hlb).
    pose proof (quiet_compressed_document env (self h) source a) as [[_ Hsa] _].
    pose proof (quiet_compressed_document env (with_verbose v (self h)) source b)
      as [[_ Hsb] _].
    destruct (compressed_document env (self h) source a) as [[ea | document] ha];
      destruct (compressed_document env (with_verbose v (self h)) source b)
        as [[eb | document'] hb];
      simpl in Hres, Hla, Hlb, Hsa, Hsb; try discriminate Hres.
    - injection Hres as ->. split; [reflexivity |]. exists log. cbn [fst snd].
      rewrite Hla, Hlb, Hca, Hcb. rewrite <- !app_assoc. split; reflexivity.
    - injection Hres as ->.
      unfold list_getitem, state_update, get_state, ret, raise.
      destruct (output (self h) !! 0%nat) as [key |]; simpl.
      + split; [rewrite Hsa, Hsb, Hstate; reflexivity |]. exists log. cbn [fst snd calls].
        rewrite Hla, Hlb, Hca, Hcb. rewrite <- !app_assoc. split; reflexivity.
      + split; [reflexivity |]. exists log. cbn [fst snd].
        rewrite Hla, Hlb, Hca, Hcb. rewrite <- !app_assoc. split; reflexivity. }
  destruct Hrun as [Hres Hlog].
  split; [exact Hres |]. split; [| exact Hlog].
  rewrite Hres in Hout'.
  destruct (execute env h).1 as [e | st'].
  - rewrite Hout, Hout'. reflexivity.
  - destruct Hout as [-> _]. destruct Hout' as [-> _]. reflexivity.
Qed.

Lemma verbose_only_announces_witness :
  (execute (Fixture.env Unbound)
     (mkHeap (with_verbose (VBool true) (Fixture.node Unbound "url" None))
             {[ "url" := VStr "http://example.com"; "other" := VInt 7 ]} [])).1
  = (execute (Fixture.env Unbound)
       (Fixture.heap Unbound "url" None (VStr "http://example.com"))).1
  /\ state (execute (Fixture.env Unbound)
              (mkHeap (with_verbose (VBool true) (Fixture.node Unbound "url" None))
                      {[ "url" := VStr "http://example.com"; "other" := VInt 7 ]} [])).2
     = state (execute (Fixture.env Unbound)
                (Fixture.heap Unbound "url" None (VStr "http://example.com"))).2
  /\ exists log,
       calls (execute (Fixture.env Unbound)
                (Fixture.heap Unbound "url" None (VStr "http://example.com"))).2
       = log
       /\ calls (execute (Fixture.env Unbound)
                   (mkHeap (with_verbose (VBool true) (Fixture.node Unbound "url" None))
                           {[ "url" := VStr "http://example.com"; "other" := VInt 7 ]}
                           [])).2
          = PrintLine "--- Executing Fetch Node ---" :: log.
Proof.
  pose proof (verbose_only_announces (Fixture.env Unbound)
                (Fixture.heap Unbound "url" None (VStr "http://example.com"))
                (VBool true) eq_refl) as W.
  exact W.
Defined.

(** ** The links of a page *)

(** X11: the loop of lines 82-85 collects exactly the hrefs of the links it
    is given: a string is collected if and only if it is the href of one of
    the links, and there are never more collected strings than links. *)
Theorem collected_links_are_the_hrefs (links : list Tag) :
  (forall x,
      x ∈ collect_hrefs links []
      <-> exists link, link ∈ links /\ attrs link !! "href" = Some x)
  /\ (length (collect_hrefs links []) <= length links)%nat.
Proof.
  rewrite collect_hrefs_spec. simpl. unfold hrefs. split.
  - intros x. apply list_elem_of_omap.
  - induction links as [| link links IH]; [reflexivity |].
    cbn. destruct (attrs link !! "href"); cbn in *; lia.
Qed.

(** ** What a run that returns has been through *)

(** When the comprehension yields values, each key holds its value. *)
Lemma comprehension_getitem_inr (keys : list string) (h : Heap) (data : list value) :
  (comprehension state_getitem keys h).1 = inr data ->
  Forall2 (fun k v => state h !! k = Some v) keys data.
Proof.
  revert data. induction keys as [| k keys IH]; intros data; simpl.
  - intros [= <-]. constructor.
  - unfold bind at 1. unfold state_getitem at 1. unfold bind at 1. simpl.
    destruct (state h !! k) as [v |] eqn:Hk; simpl; [| discriminate].
    unfold bind at 1.
    pose proof (comprehension_getitem_heap keys h) as Hheap.
    destruct (comprehension state_getitem keys h) as [[e | rest] h'];
      simpl in *; [discriminate |].
    intros [= <-]. constructor; [exact Hk | apply IH; reflexivity].
Qed.

(** X12: a run returns only if its source was read: the input expression
    resolved to at least one key and every key was in the state. *)
Theorem returning_run_has_read_its_source (env : Collaborators) (h : Heap)
    (st' : gmap string value) :
  (execute env h).1 = inr st' ->
  exists source, reads_source env h source.
Proof.
  intros Hrun. rewrite execute_from_keys in Hrun.
  unfold bind at 1 in Hrun. unfold lift at 1 in Hrun.
  destruct (get_input_keys env (self h) (state h)) as [e | input_keys] eqn:Hkeys;
    [discriminate Hrun |].
  unfold bind at 1 in Hrun.
  pose proof (comprehension_getitem_inr input_keys (announced h)) as Hdata.
  destruct (comprehension state_getitem input_keys (announced h))
    as [[e | input_data] h1]; [discriminate Hrun |].
  specialize (Hdata input_data eq_refl).
  unfold bind at 1 in Hrun. unfold list_getitem at 1 in Hrun.
  destruct Hdata as [| key source keys data Hkey Hrest]; [discriminate Hrun |].
  exists source, key, keys. split; [exact Hkeys |]. split; [exact Hkey |].
  clear Hrun Hkeys. induction Hrest as [| k v keys data Hk _ IH]; constructor.
  - exists v. exact Hk.
  - exact IH.
Qed.

Lemma returning_run_has_read_its_source_witness :
  exists source,
    reads_source (Fixture.env Unbound)
      (Fixture.heap Unbound "url" None (VStr "http://example.com")) source.
Proof.
  apply (returning_run_has_read_its_source (Fixture.env Unbound)
           (Fixture.heap Unbound "url" None (VStr "http://example.com"))
           (<["doc" := VList [VDocument
                (VStr (String.concat " "
                         ["cleaned"; prettify Fixture.example_soup; "/a"; "/b"]))
                []]]>
              {[ "url" := VStr "http://example.com"; "other" := VInt 7 ]})).
  reflexivity.
Defined.

(** X13: on the static branch a document is written only for an answer with
    status 200: when a run with useSoup set returns for a source starting
    with http, requests.get answered that source with status 200. *)
Theorem static_return_means_status_200 (env : Collaborators) (h : Heap)
    (src : string) (st' : gmap string value) :
  ~ In (input (self h)) literal_kinds ->
  reads_source env h (VStr src) ->
  startswith src "http" = true ->
  truthy (useSoup (self h)) = true ->
  (execute env h).1 = inr st' ->
  exists response, requests_get env src = inr response /\ status_code response = 200.
Proof.
  intros Hkind Hsource Hprefix Hsoup Hrun.
  rewrite (execute_from_source env h (VStr src) Hsource) in Hrun.
  unfold compressed_document in Hrun. rewrite (literal_test_false _ Hkind) in Hrun.
  revert Hrun. run. rewrite Hprefix. simpl. rewrite Hsoup. simpl.
  destruct (requests_get env src) as [e | response]; simpl; [discriminate |].
  destruct (status_code response =? 200) eqn:Hstatus; simpl; [| discriminate].
  intros _. exists response. split; [reflexivity |]. apply Z.eqb_eq. exact Hstatus.
Qed.

Lemma static_return_means_status_200_witness :
  exists response,
    Fixture.http_get "http://example.com" = inr response
    /\ status_code response = 200.
Proof.
  pose proof (static_return_means_status_200 (Fixture.env Unbound)
           (Fixture.heap Unbound "url" None (VStr "http://example.com"))
           "http://example.com"
           (<["doc" := VList [VDocument
                (VStr (String.concat " "
                         ["cleaned"; prettify Fixture.example_soup; "/a"; "/b"]))
                []]]>
              {[ "url" := VStr "http://example.com"; "other" := VInt 7 ]})) as W.
  simpl in W. apply W.
  - intros [H | [H | [H | []]]]; discriminate H.
  - exists "url", []. split; [reflexivity |]. split; [reflexivity | constructor].
  - reflexivity.
  - reflexivity.
  - reflexivity.
Defined.
